(** * HelixClipsAPI: the clip methods of the Helix binding

    A shallow embedding of [src/API/Helix/Clips/HelixClipsAPI.ts].

    The module shapes parameters, performs one call of the shared
    dispatcher [TwitchClient.apiCall] and maps the answer.  The dispatcher
    is an outside collaborator: it is a field of the client record, it may
    read and change the outside world, and it either rejects with an
    error of its own or fulfils with a JSON answer.  An [async] method is
    a computation over a run-time state that holds the outside world and
    the list of the calls issued so far; it settles as fulfilled or as
    rejected. *)

From stdpp Require Import gmap strings list fin_maps.

Open Scope string_scope.
Open Scope list_scope.

(** ** JavaScript values and object literals *)

(** The values that occur as query parameters and cursors.  A property
    that the caller left out reads as [JsUndefined]. *)
Inductive JsValue : Type :=
  | JsUndefined
  | JsBoolean (b : bool)
  | JsNumber (n : Z)
  | JsString (s : string)
  | JsStringArray (l : list string).

(** An object literal [{ k1: v1, k2: v2, ... }]: the properties are
    defined from left to right, so a later property overrides an earlier
    one with the same key. *)
Definition js_object (props : list (string * JsValue)) : gmap string JsValue :=
  fold_left (λ o p, <[p.1 := p.2]> o) props ∅.

(** [Boolean.prototype.toString]. *)
Definition Boolean_toString (b : bool) : string :=
  if b then "true" else "false".

(** ** The types of the module *)

(** [type HelixClipFilterType = 'broadcaster_id' | 'game_id' | 'id'].
    The type is a union of string literals; [filterType_key] is the string
    a member stands for. *)
Inductive HelixClipFilterType : Type :=
  | broadcaster_id
  | game_id
  | id_filter.

#[global] Instance HelixClipFilterType_eq_dec : EqDecision HelixClipFilterType.
Proof. solve_decision. Defined.

Definition filterType_key (t : HelixClipFilterType) : string :=
  match t with
  | broadcaster_id => "broadcaster_id"
  | game_id => "game_id"
  | id_filter => "id"
  end.

(** [HelixPagination] is declared in a sibling file; the module reads its
    three properties [after], [before] and [limit], each of which the
    caller may leave out. *)
Module HelixPagination.
Record t : Type := Build { after : JsValue; before : JsValue; limit : JsValue }.
End HelixPagination.

(** [interface HelixClipFilter extends HelixPagination]. *)
Module HelixClipFilter.
Record t : Type := Build {
  filterType : HelixClipFilterType;
  ids : list string;
  after : JsValue;
  before : JsValue;
  limit : JsValue
}.
End HelixClipFilter.

(** [interface HelixClipCreateParams]; [createAfterDelay] is optional. *)
Module HelixClipCreateParams.
Record t : Type := Build {
  channelId : string;
  createAfterDelay : option bool
}.
End HelixClipCreateParams.

(** [interface HelixClipCreateResponse]. *)
Module HelixClipCreateResponse.
Record t : Type := Build { id : string; edit_url : string }.
End HelixClipCreateResponse.

(** The answer type of the clip creation call, [{ data: [HelixClipCreateResponse] }].
    At run time [data] is a JavaScript array, so it is a list here and
    indexing it can miss. *)
Module HelixClipCreateResult.
Record t : Type := Build { data : list HelixClipCreateResponse.t }.
End HelixClipCreateResult.

(** [HelixResponse<T>] is declared in a sibling file; the module reads
    [data] and [pagination.cursor] of it. *)
Module HelixResponse.
Record Pagination : Type := BuildPagination { cursor : JsValue }.
Record t (T : Type) : Type := Build { data : T; pagination : Pagination }.
Arguments Build {T} _ _.
Arguments data {T} _.
Arguments pagination {T} _.
End HelixResponse.

(** [HelixPaginatedResult<T>] is declared in a sibling file; the module
    builds it from [data] and [cursor]. *)
Module HelixPaginatedResult.
Record t (T : Type) : Type := Build { data : T; cursor : JsValue }.
Arguments Build {T} _ _.
Arguments data {T} _.
Arguments cursor {T} _.
End HelixPaginatedResult.

(** Modelled from the spec: the enumeration [TwitchApiCallType] is declared
    with the client, outside this module; the spec names the Helix API
    only, and it is the only member the module uses. *)
Inductive TwitchApiCallType : Type :=
  | Helix.

(** The options object handed to [apiCall].  [scope] is left out by
    [getClips]. *)
Module TwitchApiCallOptions.
Record t : Type := Build {
  type : TwitchApiCallType;
  url : string;
  method : string;
  scope : option string;
  query : gmap string JsValue
}.
End TwitchApiCallOptions.

(** The two instantiations of the type parameter of [apiCall<T>] in this
    module, and the answer type each stands for. *)
Inductive ApiCallResult : Type :=
  | ClipsListing
  | ClipCreation.

Definition ApiCallAnswer (HelixClipData : Type) (T : ApiCallResult) : Type :=
  match T with
  | ClipsListing => HelixResponse.t (list HelixClipData)
  | ClipCreation => HelixClipCreateResult.t
  end.

(** The client: its shared dispatcher takes the options and the outside
    world and gives an error or an answer, and the world after the call. *)
Module TwitchClient.
Record t (World ApiError HelixClipData : Type) : Type := Build {
  apiCall : ∀ T : ApiCallResult,
    TwitchApiCallOptions.t → World → (ApiError + ApiCallAnswer HelixClipData T) * World
}.
Arguments Build {World ApiError HelixClipData} _.
Arguments apiCall {World ApiError HelixClipData} _ _ _ _.
End TwitchClient.

(** Modelled from the spec: the class [HelixClip] is declared in a sibling
    file.  The spec says a clip record is wrapped without transformation
    except for attaching a reference to the calling client, so the wrapped
    object holds the two arguments of its constructor. *)
Module HelixClip.
Record t (Client HelixClipData : Type) : Type := new {
  _data : HelixClipData;
  _client : Client
}.
Arguments new {Client HelixClipData} _ _.
Arguments _data {Client HelixClipData} _.
Arguments _client {Client HelixClipData} _.
End HelixClip.

(** [BaseAPI] keeps the client the methods call through. *)
Module BaseAPI.
Record t (Client : Type) : Type := Build { _client : Client }.
Arguments Build {Client} _.
Arguments _client {Client} _.
End BaseAPI.

(** ** Asynchronous computations *)

(** What a rejected promise carries: an error of the dispatcher, or the
    [TypeError] JavaScript raises on reading a property of [undefined]. *)
Inductive Thrown (ApiError : Type) : Type :=
  | DispatcherError (e : ApiError)
  | TypeError.
Arguments DispatcherError {ApiError} _.
Arguments TypeError {ApiError}.

Inductive Settled (ApiError A : Type) : Type :=
  | Fulfilled (a : A)
  | Rejected (reason : Thrown ApiError).
Arguments Fulfilled {ApiError A} _.
Arguments Rejected {ApiError A} _.

(** The run-time state: the outside world and the calls issued so far, in
    the order they were issued. *)
Record Runtime (World : Type) : Type := BuildRuntime {
  world : World;
  issued : list TwitchApiCallOptions.t
}.
Arguments BuildRuntime {World} _ _.
Arguments world {World} _.
Arguments issued {World} _.

Definition Async (World ApiError A : Type) : Type :=
  Runtime World → Settled ApiError A * Runtime World.

Section AsyncMonad.
Context {World ApiError : Type}.

#[global] Instance Async_ret : MRet (Async World ApiError) :=
  λ A a r, (Fulfilled a, r).

#[global] Instance Async_bind : MBind (Async World ApiError) :=
  λ A B k m r,
    match m r with
    | (Fulfilled a, r') => k a r'
    | (Rejected reason, r') => (Rejected reason, r')
    end.

(** [throw]: the computation rejects. *)
Definition throw {A : Type} (reason : Thrown ApiError) : Async World ApiError A :=
  λ r, (Rejected reason, r).

(** [await client.apiCall<T>(options)]: the call is recorded, the
    dispatcher runs on the world, and its error, if any, is the reason of
    the rejection. *)
Definition await_apiCall {HelixClipData : Type}
    (client : TwitchClient.t World ApiError HelixClipData)
    (T : ApiCallResult) (options : TwitchApiCallOptions.t) :
    Async World ApiError (ApiCallAnswer HelixClipData T) :=
  λ r,
    let '(answer, w) := TwitchClient.apiCall client T options (world r) in
    (match answer with
     | inl e => Rejected (DispatcherError e)
     | inr result => Fulfilled result
     end,
     BuildRuntime w (issued r ++ [options])).
End AsyncMonad.

(** ** The methods of [HelixClipsAPI] *)

Section HelixClipsAPI.
Context {World ApiError HelixClipData : Type}.

#[local] Abbreviation Client := (TwitchClient.t World ApiError HelixClipData).
#[local] Abbreviation Clip := (HelixClip.t Client HelixClipData).

Definition getClips (this : BaseAPI.t Client) (params : HelixClipFilter.t) :
    Async World ApiError (HelixPaginatedResult.t (list Clip)) :=
  let 'HelixClipFilter.Build filterType ids after before limit := params in
  result ← await_apiCall (BaseAPI._client this) ClipsListing
    {| TwitchApiCallOptions.type := Helix;
       TwitchApiCallOptions.url := "clips";
       TwitchApiCallOptions.method := "GET";
       TwitchApiCallOptions.scope := None;
       TwitchApiCallOptions.query :=
         js_object [ (filterType_key filterType, JsStringArray ids);
                     ("after", after);
                     ("before", before);
                     ("first", limit) ] |};
  mret {| HelixPaginatedResult.data :=
            (λ data, HelixClip.new data (BaseAPI._client this))
              <$> HelixResponse.data result;
          HelixPaginatedResult.cursor :=
            HelixResponse.cursor (HelixResponse.pagination result) |}.

(** [{ ...pagination, filterType: 'broadcaster_id', ids: [id] }]: the
    spread copies the three pagination properties, the two that follow
    are set after it. *)
Definition getClipsForBroadcaster (this : BaseAPI.t Client) (id : string)
    (pagination : HelixPagination.t) :=
  getClips this
    {| HelixClipFilter.after := HelixPagination.after pagination;
       HelixClipFilter.before := HelixPagination.before pagination;
       HelixClipFilter.limit := HelixPagination.limit pagination;
       HelixClipFilter.filterType := broadcaster_id;
       HelixClipFilter.ids := [id] |}.

Definition getClipsForGame (this : BaseAPI.t Client) (id : string)
    (pagination : HelixPagination.t) :=
  getClips this
    {| HelixClipFilter.after := HelixPagination.after pagination;
       HelixClipFilter.before := HelixPagination.before pagination;
       HelixClipFilter.limit := HelixPagination.limit pagination;
       HelixClipFilter.filterType := game_id;
       HelixClipFilter.ids := [id] |}.

(** [{ filterType: 'id', ids }]: no pagination property is set, so the
    three read as [undefined]. *)
Definition getClipsByIds (this : BaseAPI.t Client) (ids : list string) :=
  getClips this
    {| HelixClipFilter.filterType := id_filter;
       HelixClipFilter.ids := ids;
       HelixClipFilter.after := JsUndefined;
       HelixClipFilter.before := JsUndefined;
       HelixClipFilter.limit := JsUndefined |}.

(** [result.data[0].id]: reading index 0 of an empty array gives
    [undefined], and reading [id] of [undefined] raises a [TypeError]. *)
Definition createClip (this : BaseAPI.t Client) (params : HelixClipCreateParams.t) :
    Async World ApiError string :=
  let channelId := HelixClipCreateParams.channelId params in
  let createAfterDelay := default false (HelixClipCreateParams.createAfterDelay params) in
  result ← await_apiCall (BaseAPI._client this) ClipCreation
    {| TwitchApiCallOptions.type := Helix;
       TwitchApiCallOptions.url := "clips";
       TwitchApiCallOptions.method := "POST";
       TwitchApiCallOptions.scope := Some "clips:edit";
       TwitchApiCallOptions.query :=
         js_object [ ("broadcaster_id", JsString channelId);
                     ("has_delay", JsString (Boolean_toString createAfterDelay)) ] |};
  match HelixClipCreateResult.data result !! 0%nat with
  | Some first => mret (HelixClipCreateResponse.id first)
  | None => throw TypeError
  end.
End HelixClipsAPI.

(** ** Observations on a run *)





(** The three query keys a filter can travel under. *)
Definition filter_keys : list string :=
  filterType_key <$> [broadcaster_id; game_id; id_filter].

(** How many of the filter keys are own properties of a query object. *)
Definition filter_dimensions (q : gmap string JsValue) : nat :=
  length (filter (λ k, is_Some (q !! k)) filter_keys).

(** The object [{ ...pagination, filterType: t, ids: l }] of the three
    specialised listing methods, as the description of the forwarding
    spells it. *)
Definition spread_with_filter (pagination : HelixPagination.t)
    (t : HelixClipFilterType) (l : list string) : HelixClipFilter.t :=
  HelixClipFilter.Build t l
    (HelixPagination.after pagination)
    (HelixPagination.before pagination)
    (HelixPagination.limit pagination).

(** The object [{ filterType: t, ids: l }], with no pagination property. *)
Definition filter_only (t : HelixClipFilterType) (l : list string) :
    HelixClipFilter.t :=
  HelixClipFilter.Build t l JsUndefined JsUndefined JsUndefined.

(** ** Sample clients

    The world of the samples is the number of calls the dispatcher has
    served, an error is a status line, and a clip record is its title. *)
Module Samples.

Definition Client : Type := TwitchClient.t nat string string.

Definition clipsAnswer : HelixResponse.t (list string) :=
  HelixResponse.Build ["first clip"; "second clip"; "third clip"]
    (HelixResponse.BuildPagination (JsString "eyJiIjpudWxsfQ")).

Definition createdClip : HelixClipCreateResponse.t :=
  HelixClipCreateResponse.Build "AwkwardHelplessSalamander"
    "https://clips.twitch.tv/AwkwardHelplessSalamander/edit".

(** A dispatcher that answers every call. *)
Definition answering : Client :=
  TwitchClient.Build (λ T _ served,
    (match T return string + ApiCallAnswer string T with
     | ClipsListing => inr clipsAnswer
     | ClipCreation => inr (HelixClipCreateResult.Build [createdClip])
     end, S served)).

(** A dispatcher whose answer to the creation call has an empty array. *)
Definition answering_empty : Client :=
  TwitchClient.Build (λ T _ served,
    (match T return string + ApiCallAnswer string T with
     | ClipsListing => inr (HelixResponse.Build [] (HelixResponse.BuildPagination JsUndefined))
     | ClipCreation => inr (HelixClipCreateResult.Build [])
     end, S served)).

(** A dispatcher that fails every call. *)
Definition failing : Client :=
  TwitchClient.Build (λ T _ served, (inl "429 Too Many Requests", S served)).

Definition start : Runtime nat := BuildRuntime 0%nat [].

Definition page : HelixPagination.t :=
  HelixPagination.Build (JsString "eyJhIjoiMTIzIn0") JsUndefined (JsNumber 20).

Definition gameFilter : HelixClipFilter.t :=
  HelixClipFilter.Build game_id ["33214"]
    (JsString "eyJhIjoiMTIzIn0") (JsString "eyJiIjoiNDU2In0") (JsNumber 20).

Definition createParams : HelixClipCreateParams.t :=
  HelixClipCreateParams.Build "125328655" None.

(** The options object [createClip] builds for [createParams]. *)
Definition createOptions : TwitchApiCallOptions.t :=
  TwitchApiCallOptions.Build Helix "clips" "POST" (Some "clips:edit")
    (js_object [("broadcaster_id", JsString "125328655");
                ("has_delay", JsString "false")]).

End Samples.

(** * Properties *)

(** ** Object literals *)

Lemma js_object_snoc props k v :
  js_object (props ++ [(k, v)]) = <[k := v]> (js_object props).
Proof. unfold js_object. by rewrite fold_left_app. Qed.

(** The property written last is the one read back, whatever came before. *)
Lemma js_object_last props k v :
  js_object (props ++ [(k, v)]) !! k = Some v.
Proof. rewrite js_object_snoc. apply lookup_insert_eq. Qed.

(** Distinct filter types stand for distinct keys. *)
Lemma filterType_key_inj t t' : filterType_key t = filterType_key t' → t = t'.
Proof. by destruct t, t'. Qed.

(** No filter key is the name of a pagination parameter. *)
Lemma filterType_key_not_pagination t :
  filterType_key t ≠ "after" ∧ filterType_key t ≠ "before" ∧ filterType_key t ≠ "first".
Proof. by destruct t. Qed.

(** Rewrites a lookup in an object literal of known keys. *)
Ltac object_lookup :=
  unfold js_object; cbn [fold_left fst snd];
  repeat first
    [ rewrite lookup_insert_eq
    | rewrite lookup_insert_ne by (discriminate || congruence)
    | rewrite lookup_empty ];
  try reflexivity.

(** ** One step of each method *)

Section Runs.
Context {World ApiError HelixClipData : Type}.

#[local] Abbreviation Client := (TwitchClient.t World ApiError HelixClipData).

(** The options object of the call in [getClips]. *)
Lemma getClips_run (this : BaseAPI.t Client) (params : HelixClipFilter.t) (r : Runtime World) :
  ∃ req,
    req = TwitchApiCallOptions.Build Helix "clips" "GET" None
            (js_object [ (filterType_key (HelixClipFilter.filterType params),
                          JsStringArray (HelixClipFilter.ids params));
                         ("after", HelixClipFilter.after params);
                         ("before", HelixClipFilter.before params);
                         ("first", HelixClipFilter.limit params) ]) ∧
    getClips this params r =
      (match (TwitchClient.apiCall (BaseAPI._client this) ClipsListing req (world r)).1 with
       | inl e => Rejected (DispatcherError e)
       | inr result =>
           Fulfilled (HelixPaginatedResult.Build
             ((λ data, HelixClip.new data (BaseAPI._client this)) <$> HelixResponse.data result)
             (HelixResponse.cursor (HelixResponse.pagination result)))
       end,
       BuildRuntime (TwitchClient.apiCall (BaseAPI._client this) ClipsListing req (world r)).2
         (issued r ++ [req])).
Proof.
  eexists; split; [reflexivity|].
  destruct params as [t l a b n]; cbn [HelixClipFilter.filterType HelixClipFilter.ids
    HelixClipFilter.after HelixClipFilter.before HelixClipFilter.limit].
  unfold getClips, mbind, Async_bind, await_apiCall.
  destruct (TwitchClient.apiCall _ _ _ _) as [[e|result] w]; reflexivity.
Qed.

Lemma createClip_run (this : BaseAPI.t Client) (params : HelixClipCreateParams.t) (r : Runtime World) :
  ∃ req,
    req = TwitchApiCallOptions.Build Helix "clips" "POST" (Some "clips:edit")
            (js_object [ ("broadcaster_id", JsString (HelixClipCreateParams.channelId params));
                         ("has_delay", JsString (Boolean_toString
                            (default false (HelixClipCreateParams.createAfterDelay params)))) ]) ∧
    createClip this params r =
      (match (TwitchClient.apiCall (BaseAPI._client this) ClipCreation req (world r)).1 with
       | inl e => Rejected (DispatcherError e)
       | inr result =>
           match HelixClipCreateResult.data result !! 0%nat with
           | Some first => Fulfilled (HelixClipCreateResponse.id first)
           | None => Rejected TypeError
           end
       end,
       BuildRuntime (TwitchClient.apiCall (BaseAPI._client this) ClipCreation req (world r)).2
         (issued r ++ [req])).
Proof.
  eexists; split; [reflexivity|].
  unfold createClip, mbind, Async_bind, await_apiCall.
  destruct (TwitchClient.apiCall _ _ _ _) as [[e|result] w]; [reflexivity|].
  cbn [fst snd]. by destruct (HelixClipCreateResult.data result !! 0%nat).
Qed.

End Runs.

(** ** The listing methods *)

Section Listing.
Context {World ApiError HelixClipData : Type}.

#[local] Abbreviation Client := (TwitchClient.t World ApiError HelixClipData).

(** C1. The filter type selects the query key of the ids: [getClips] puts
    the ids array under the key [params.filterType] and under no other
    filter key, and the three specialised methods put their ids under
    [broadcaster_id], [game_id] and [id]. *)
Theorem filter_type_selects_query_key (this : BaseAPI.t Client) (r : Runtime World) :
  (∀ params, ∃ req,
      issued (getClips this params r).2 = issued r ++ [req] ∧
      ∀ t, TwitchApiCallOptions.query req !! filterType_key t =
             if decide (t = HelixClipFilter.filterType params)
             then Some (JsStringArray (HelixClipFilter.ids params))
             else None) ∧
  (∀ id pagination, ∃ req,
      issued (getClipsForBroadcaster this id pagination r).2 = issued r ++ [req] ∧
      TwitchApiCallOptions.query req !! "broadcaster_id" = Some (JsStringArray [id]) ∧
      TwitchApiCallOptions.query req !! "game_id" = None ∧
      TwitchApiCallOptions.query req !! "id" = None) ∧
  (∀ id pagination, ∃ req,
      issued (getClipsForGame this id pagination r).2 = issued r ++ [req] ∧
      TwitchApiCallOptions.query req !! "game_id" = Some (JsStringArray [id]) ∧
      TwitchApiCallOptions.query req !! "broadcaster_id" = None ∧
      TwitchApiCallOptions.query req !! "id" = None) ∧
  (∀ ids, ∃ req,
      issued (getClipsByIds this ids r).2 = issued r ++ [req] ∧
      TwitchApiCallOptions.query req !! "id" = Some (JsStringArray ids) ∧
      TwitchApiCallOptions.query req !! "broadcaster_id" = None ∧
      TwitchApiCallOptions.query req !! "game_id" = None).
Proof.
  split; [|split; [|split]].
  - intros params.
    destruct (getClips_run this params r) as (req & -> & ->).
    eexists; split; [reflexivity|]. intros t.
    cbn [TwitchApiCallOptions.query].
    destruct params as [t0 l a b n]; cbn [HelixClipFilter.filterType HelixClipFilter.ids].
    case_decide as Ht.
    + subst t0. destruct t; object_lookup.
    + destruct t, t0; try congruence; object_lookup.
  - intros id pagination. unfold getClipsForBroadcaster.
    destruct (getClips_run this
      (HelixClipFilter.Build broadcaster_id [id] (HelixPagination.after pagination)
         (HelixPagination.before pagination) (HelixPagination.limit pagination)) r)
      as (req & -> & ->).
    eexists; split; [reflexivity|]. repeat split; object_lookup.
  - intros id pagination. unfold getClipsForGame.
    destruct (getClips_run this
      (HelixClipFilter.Build game_id [id] (HelixPagination.after pagination)
         (HelixPagination.before pagination) (HelixPagination.limit pagination)) r)
      as (req & -> & ->).
    eexists; split; [reflexivity|]. repeat split; object_lookup.
  - intros ids. unfold getClipsByIds.
    destruct (getClips_run this
      (HelixClipFilter.Build id_filter ids JsUndefined JsUndefined JsUndefined) r)
      as (req & -> & ->).
    eexists; split; [reflexivity|]. repeat split; object_lookup.
Qed.

(** C3. The pagination parameters pass through unchanged: the query of the
    call [getClips] issues has [params.after] under [after],
    [params.before] under [before] and [params.limit] under [first]. *)
Theorem pagination_passes_through (this : BaseAPI.t Client)
    (params : HelixClipFilter.t) (r : Runtime World) :
  ∃ req,
    issued (getClips this params r).2 = issued r ++ [req] ∧
    TwitchApiCallOptions.query req !! "after" = Some (HelixClipFilter.after params) ∧
    TwitchApiCallOptions.query req !! "before" = Some (HelixClipFilter.before params) ∧
    TwitchApiCallOptions.query req !! "first" = Some (HelixClipFilter.limit params).
Proof.
  destruct (getClips_run this params r) as (req & -> & ->).
  eexists; split; [reflexivity|].
  destruct (filterType_key_not_pagination (HelixClipFilter.filterType params))
    as (Ha & Hb & Hf).
  cbn [TwitchApiCallOptions.query]. repeat split; object_lookup.
Qed.

(** The query of a call of [getClips] has one filter dimension. *)
Lemma getClips_query_dimensions (t : HelixClipFilterType) (l : list string)
    (a b n : JsValue) :
  filter_dimensions
    (js_object [ (filterType_key t, JsStringArray l);
                 ("after", a); ("before", b); ("first", n) ]) = 1%nat.
Proof.
  unfold filter_dimensions, filter_keys. cbn [fmap list_fmap filterType_key].
  rewrite !filter_cons, filter_nil.
  destruct t; cbn [filterType_key];
    repeat match goal with
    | |- context [decide (is_Some ?o)] =>
        let E := fresh "E" in
        destruct (decide (is_Some o)) as [E|E];
        [ try (exfalso; revert E; object_lookup; by intros [? ?])
        | try (exfalso; apply E; object_lookup; by eexists) ]
    end; reflexivity.
Qed.

(** C4. One filter dimension per request: of the query keys
    [broadcaster_id], [game_id] and [id], the call issued by [getClips],
    and so by each of the three specialised methods, has exactly one. *)
Theorem one_filter_dimension_per_request (this : BaseAPI.t Client) (r : Runtime World) :
  (∀ params, ∃ req,
      issued (getClips this params r).2 = issued r ++ [req] ∧
      filter_dimensions (TwitchApiCallOptions.query req) = 1%nat) ∧
  (∀ id pagination, ∃ req,
      issued (getClipsForBroadcaster this id pagination r).2 = issued r ++ [req] ∧
      filter_dimensions (TwitchApiCallOptions.query req) = 1%nat) ∧
  (∀ id pagination, ∃ req,
      issued (getClipsForGame this id pagination r).2 = issued r ++ [req] ∧
      filter_dimensions (TwitchApiCallOptions.query req) = 1%nat) ∧
  (∀ ids, ∃ req,
      issued (getClipsByIds this ids r).2 = issued r ++ [req] ∧
      filter_dimensions (TwitchApiCallOptions.query req) = 1%nat).
Proof.
  assert (Hgen : ∀ params, ∃ req,
      issued (getClips this params r).2 = issued r ++ [req] ∧
      filter_dimensions (TwitchApiCallOptions.query req) = 1%nat).
  { intros params. destruct (getClips_run this params r) as (req & -> & ->).
    eexists; split; [reflexivity|]. apply getClips_query_dimensions. }
  split; [exact Hgen|].
  split; [intros id pagination; apply Hgen|].
  split; [intros id pagination; apply Hgen|].
  intros ids; apply Hgen.
Qed.

(** C5. The three specialised listing methods fix the filter type and
    forward to [getClips]: [getClipsForBroadcaster id p] is [getClips] on
    [{...p, filterType: 'broadcaster_id', ids: [id]}], [getClipsForGame id p]
    is [getClips] on [{...p, filterType: 'game_id', ids: [id]}], and
    [getClipsByIds ids] is [getClips] on [{filterType: 'id', ids}]. *)
Theorem specialised_listings_forward (this : BaseAPI.t Client) :
  (∀ id pagination,
      getClipsForBroadcaster this id pagination =
      getClips this (spread_with_filter pagination broadcaster_id [id])) ∧
  (∀ id pagination,
      getClipsForGame this id pagination =
      getClips this (spread_with_filter pagination game_id [id])) ∧
  (∀ ids,
      getClipsByIds this ids = getClips this (filter_only id_filter ids)).
Proof.
  split; [|split]; intros;
    [ unfold getClipsForBroadcaster | unfold getClipsForGame | unfold getClipsByIds ];
    reflexivity.
Qed.

(** C6. [getClips] issues one call, a GET of the clips resource.  When the
    dispatcher answers, the method is fulfilled with the answer's records
    wrapped one by one, in their order, each wrapper holding its record
    unchanged and the calling client, and with the cursor of the answer's
    pagination. *)
Theorem getClips_single_GET_wraps_answer (this : BaseAPI.t Client)
    (params : HelixClipFilter.t) (r : Runtime World) :
  ∃ req,
    issued (getClips this params r).2 = issued r ++ [req] ∧
    TwitchApiCallOptions.method req = "GET" ∧
    TwitchApiCallOptions.url req = "clips" ∧
    match (TwitchClient.apiCall (BaseAPI._client this) ClipsListing req (world r)).1 with
    | inl e => (getClips this params r).1 = Rejected (DispatcherError e)
    | inr result =>
        ∃ clips,
          (getClips this params r).1 =
            Fulfilled (HelixPaginatedResult.Build clips
              (HelixResponse.cursor (HelixResponse.pagination result))) ∧
          length clips = length (HelixResponse.data result) ∧
          (∀ i : nat, clips !! i =
             (λ data, HelixClip.new data (BaseAPI._client this))
               <$> HelixResponse.data result !! i) ∧
          HelixClip._data <$> clips = HelixResponse.data result ∧
          HelixClip._client <$> clips =
            replicate (length (HelixResponse.data result)) (BaseAPI._client this)
    end.
Proof.
  destruct (getClips_run this params r) as (req & -> & ->).
  eexists; split; [reflexivity|]. do 2 (split; [reflexivity|]).
  cbn [fst snd].
  destruct (TwitchClient.apiCall _ _ _ _).1 as [e|result]; [reflexivity|].
  eexists; split; [reflexivity|].
  split; [apply length_fmap|].
  split; [intros i; apply list_lookup_fmap|].
  split.
  - rewrite <- list_fmap_compose. apply list_fmap_id.
  - induction (HelixResponse.data result) as [|d ds IH]; [reflexivity|].
    cbn. by rewrite IH.
Qed.

End Listing.

(** ** Clip creation *)

Section Creation.
Context {World ApiError HelixClipData : Type}.

#[local] Abbreviation Client := (TwitchClient.t World ApiError HelixClipData).

(** C2. When the dispatcher answers the creation call with a data array of
    one element, [createClip] returns the [id] of that element. *)
Theorem createClip_returns_first_id (this : BaseAPI.t Client)
    (params : HelixClipCreateParams.t) (r : Runtime World)
    (req : TwitchApiCallOptions.t) (result : HelixClipCreateResult.t)
    (w : World) (first : HelixClipCreateResponse.t) :
  issued (createClip this params r).2 = issued r ++ [req] →
  TwitchClient.apiCall (BaseAPI._client this) ClipCreation req (world r) = (inr result, w) →
  HelixClipCreateResult.data result = [first] →
  createClip this params r =
    (Fulfilled (HelixClipCreateResponse.id first), BuildRuntime w (issued r ++ [req])).
Proof.
  intros Hissued Hcall Hdata.
  destruct (createClip_run this params r) as (req' & Hreq & Hrun).
  rewrite Hrun in Hissued. cbn [snd issued] in Hissued.
  apply app_inv_head in Hissued. injection Hissued as ->.
  rewrite Hrun, Hcall. cbn [fst snd]. by rewrite Hdata.
Qed.


(** C9. [createClip] reads index 0 of the answer's data array without a
    guard: on a non-empty array the read gives the first element and the
    method returns its [id]; on an empty array the read is out of bounds
    and the method gives no result, it rejects with a [TypeError]. *)
Theorem createClip_index_zero (this : BaseAPI.t Client)
    (params : HelixClipCreateParams.t) (r : Runtime World)
    (req : TwitchApiCallOptions.t) (result : HelixClipCreateResult.t) (w : World) :
  issued (createClip this params r).2 = issued r ++ [req] →
  TwitchClient.apiCall (BaseAPI._client this) ClipCreation req (world r) = (inr result, w) →
  (HelixClipCreateResult.data result ≠ [] →
     ∃ first,
       HelixClipCreateResult.data result !! 0%nat = Some first ∧
       (createClip this params r).1 = Fulfilled (HelixClipCreateResponse.id first)) ∧
  (HelixClipCreateResult.data result = [] →
     HelixClipCreateResult.data result !! 0%nat = None ∧
     (createClip this params r).1 = Rejected TypeError).
Proof.
  intros Hissued Hcall.
  destruct (createClip_run this params r) as (req' & Hreq & Hrun).
  rewrite Hrun in Hissued. cbn [snd issued] in Hissued.
  apply app_inv_head in Hissued. injection Hissued as ->.
  rewrite Hrun, Hcall. cbn [fst snd]. split.
  - intros Hne. destruct (HelixClipCreateResult.data result) as [|first rest];
      [congruence|]. by exists first.
  - intros ->. by split.
Qed.

(** C10. An omitted [createAfterDelay] defaults to [false], so the query
    has the string ['false'] under [has_delay]; a given flag is sent as
    ['true'] or ['false'] according to its value. *)
Theorem has_delay_defaults_to_false (this : BaseAPI.t Client)
    (channelId : string) (r : Runtime World) :
  (∃ req,
     issued (createClip this (HelixClipCreateParams.Build channelId None) r).2
       = issued r ++ [req] ∧
     TwitchApiCallOptions.query req !! "has_delay" = Some (JsString "false")) ∧
  (∀ flag : bool, ∃ req,
     issued (createClip this (HelixClipCreateParams.Build channelId (Some flag)) r).2
       = issued r ++ [req] ∧
     TwitchApiCallOptions.query req !! "has_delay" =
       Some (JsString (if flag then "true" else "false"))).
Proof.
  split; [|intros flag].
  - destruct (createClip_run this (HelixClipCreateParams.Build channelId None) r)
      as (req & -> & ->).
    eexists; split; [reflexivity|]. cbn [TwitchApiCallOptions.query]. object_lookup.
  - destruct (createClip_run this (HelixClipCreateParams.Build channelId (Some flag)) r)
      as (req & -> & ->).
    eexists; split; [reflexivity|]. cbn [TwitchApiCallOptions.query]. object_lookup.
Qed.

End Creation.

(** ** Errors of the dispatcher *)

Section Errors.
Context {World ApiError HelixClipData : Type}.

#[local] Abbreviation Client := (TwitchClient.t World ApiError HelixClipData).


End Errors.

(** ** The methods on the sample clients *)

Example getClips_on_sample :
  getClips (BaseAPI.Build Samples.answering) Samples.gameFilter Samples.start =
    (Fulfilled (HelixPaginatedResult.Build
       [ HelixClip.new "first clip" Samples.answering;
         HelixClip.new "second clip" Samples.answering;
         HelixClip.new "third clip" Samples.answering ]
       (JsString "eyJiIjpudWxsfQ")),
     BuildRuntime 1%nat
       [ TwitchApiCallOptions.Build Helix "clips" "GET" None
           (js_object [ ("game_id", JsStringArray ["33214"]);
                        ("after", JsString "eyJhIjoiMTIzIn0");
                        ("before", JsString "eyJiIjoiNDU2In0");
                        ("first", JsNumber 20) ]) ]).
Proof. reflexivity. Qed.

Example getClips_sample_query :
  (TwitchApiCallOptions.query <$>
     issued (getClipsForBroadcaster (BaseAPI.Build Samples.answering)
               "125328655" Samples.page Samples.start).2) =
    [ {[ "broadcaster_id" := JsStringArray ["125328655"];
         "after" := JsString "eyJhIjoiMTIzIn0";
         "before" := JsUndefined;
         "first" := JsNumber 20 ]} ].
Proof. vm_compute. reflexivity. Qed.

Example getClips_on_failing_sample :
  getClipsByIds (BaseAPI.Build Samples.failing) ["AwkwardHelplessSalamander"] Samples.start =
    (Rejected (DispatcherError "429 Too Many Requests"),
     BuildRuntime 1%nat
       [ TwitchApiCallOptions.Build Helix "clips" "GET" None
           (js_object [ ("id", JsStringArray ["AwkwardHelplessSalamander"]);
                        ("after", JsUndefined);
                        ("before", JsUndefined);
                        ("first", JsUndefined) ]) ]).
Proof. reflexivity. Qed.

Example createClip_on_failing_sample :
  createClip (BaseAPI.Build Samples.failing) Samples.createParams Samples.start =
    (Rejected (DispatcherError "429 Too Many Requests"),
     BuildRuntime 1%nat [Samples.createOptions]).
Proof. reflexivity. Qed.

(** C2 on the answering sample. *)
Lemma createClip_returns_first_id_witness :
  createClip (BaseAPI.Build Samples.answering) Samples.createParams Samples.start =
    (Fulfilled "AwkwardHelplessSalamander",
     BuildRuntime 1%nat [Samples.createOptions]).
Proof.
  exact (createClip_returns_first_id
           (BaseAPI.Build Samples.answering) Samples.createParams Samples.start
           Samples.createOptions (HelixClipCreateResult.Build [Samples.createdClip])
           1%nat Samples.createdClip eq_refl eq_refl eq_refl).
Defined.

(** C9 on the answering sample and on the sample with the empty array. *)
Lemma createClip_index_zero_witness :
  (createClip (BaseAPI.Build Samples.answering) Samples.createParams Samples.start).1
    = Fulfilled "AwkwardHelplessSalamander" ∧
  (createClip (BaseAPI.Build Samples.answering_empty) Samples.createParams Samples.start).1
    = Rejected TypeError.
Proof.
  split.
  - destruct (createClip_index_zero
                (BaseAPI.Build Samples.answering) Samples.createParams Samples.start
                Samples.createOptions (HelixClipCreateResult.Build [Samples.createdClip])
                1%nat eq_refl eq_refl) as [Hfull _].
    destruct (Hfull ltac:(discriminate)) as (first & Hfirst & Hid).
    injection Hfirst as <-. exact Hid.
  - destruct (createClip_index_zero
                (BaseAPI.Build Samples.answering_empty) Samples.createParams Samples.start
                Samples.createOptions (HelixClipCreateResult.Build [])
                1%nat eq_refl eq_refl) as [_ Hempty].
    exact (proj2 (Hempty eq_refl)).
Defined.




(** [filter_dimensions] counts: no filter key, one, two. *)
Example filter_dimensions_counts :
  filter_dimensions (js_object [("after", JsString "eyJhIjoiMTIzIn0")]) = 0%nat ∧
  filter_dimensions (js_object [("id", JsStringArray []); ("first", JsNumber 5)]) = 1%nat ∧
  filter_dimensions (js_object [("id", JsStringArray ["a"]);
                                ("game_id", JsStringArray ["33214"])]) = 2%nat.
Proof. vm_compute. repeat split. Qed.

(** * Further properties of the request shaping *)

(** ** The query objects, key by key *)

(** [object_lookup], in a hypothesis. *)
Ltac object_lookup_in H :=
  unfold js_object in H; cbn [fold_left fst snd] in H;
  repeat first
    [ rewrite lookup_insert_eq in H
    | rewrite lookup_insert_ne in H by discriminate
    | rewrite lookup_empty in H ].

Lemma clips_query_dom (t : HelixClipFilterType) (l : list string) (a b n : JsValue) :
  dom (js_object [ (filterType_key t, JsStringArray l);
                   ("after", a); ("before", b); ("first", n) ])
    = ({[ filterType_key t; "after"; "before"; "first" ]} : gset string).
Proof.
  unfold js_object; cbn [fold_left fst snd].
  rewrite !dom_insert_L, dom_empty_L.
  apply set_eq; intros k.
  rewrite !elem_of_union, !elem_of_singleton, elem_of_empty. tauto.
Qed.

(** Two query objects of [getClips] are equal only when they were built
    from the same five values. *)
Lemma clips_query_inj (t t' : HelixClipFilterType) (l l' : list string)
    (a a' b b' n n' : JsValue) :
  js_object [ (filterType_key t, JsStringArray l);
              ("after", a); ("before", b); ("first", n) ]
  = js_object [ (filterType_key t', JsStringArray l');
                ("after", a'); ("before", b'); ("first", n') ] →
  t = t' ∧ l = l' ∧ a = a' ∧ b = b' ∧ n = n'.
Proof.
  intros Heq.
  pose proof (f_equal (.!! "first") Heq) as Hn.
  pose proof (f_equal (.!! "before") Heq) as Hb.
  pose proof (f_equal (.!! "after") Heq) as Ha.
  pose proof (f_equal (.!! filterType_key t) Heq) as Ht.
  clear Heq.
  destruct t, t'; cbn [filterType_key] in *;
    object_lookup_in Hn; object_lookup_in Hb;
    object_lookup_in Ha; object_lookup_in Ht;
    try discriminate Ht;
    repeat split; congruence.
Qed.

Lemma Boolean_toString_inj (b b' : bool) :
  Boolean_toString b = Boolean_toString b' → b = b'.
Proof. by destruct b, b'. Qed.

Lemma create_query_inj (c c' : string) (d d' : bool) :
  js_object [ ("broadcaster_id", JsString c);
              ("has_delay", JsString (Boolean_toString d)) ]
  = js_object [ ("broadcaster_id", JsString c');
                ("has_delay", JsString (Boolean_toString d')) ] →
  c = c' ∧ d = d'.
Proof.
  intros Heq.
  pose proof (f_equal (.!! "broadcaster_id") Heq) as Hc.
  pose proof (f_equal (.!! "has_delay") Heq) as Hd.
  object_lookup_in Hc. object_lookup_in Hd.
  split; [congruence|]. apply Boolean_toString_inj. congruence.
Qed.

(** ** What a request carries, and what it depends on *)

Section Shaping.
Context {World ApiError HelixClipData : Type}.

#[local] Abbreviation Client := (TwitchClient.t World ApiError HelixClipData).

(** The query of a listing call has four own properties and no other: the
    filter key, [after], [before] and [first].  The three pagination keys
    are there also when the caller left the values out.  The call names no
    scope. *)
Theorem getClips_query_keys (this : BaseAPI.t Client)
    (params : HelixClipFilter.t) (r : Runtime World) :
  ∃ req,
    issued (getClips this params r).2 = issued r ++ [req] ∧
    dom (TwitchApiCallOptions.query req) =
      ({[ filterType_key (HelixClipFilter.filterType params);
          "after"; "before"; "first" ]} : gset string) ∧
    size (TwitchApiCallOptions.query req) = 4%nat ∧
    TwitchApiCallOptions.scope req = None.
Proof.
  destruct (getClips_run this params r) as (req & -> & ->).
  eexists; split; [reflexivity|]. cbn [TwitchApiCallOptions.query].
  split; [apply clips_query_dom|]. split; [|reflexivity].
  rewrite <- size_dom, clips_query_dom.
  by destruct (HelixClipFilter.filterType params).
Qed.

(** The query of the creation call has the two own properties
    [broadcaster_id] and [has_delay] and no other, and the call names the
    scope [clips:edit]. *)
Theorem createClip_query_keys (this : BaseAPI.t Client)
    (params : HelixClipCreateParams.t) (r : Runtime World) :
  ∃ req,
    issued (createClip this params r).2 = issued r ++ [req] ∧
    dom (TwitchApiCallOptions.query req) =
      ({[ "broadcaster_id"; "has_delay" ]} : gset string) ∧
    TwitchApiCallOptions.scope req = Some "clips:edit".
Proof.
  destruct (createClip_run this params r) as (req & -> & ->).
  eexists; split; [reflexivity|]. split; [|reflexivity].
  cbn [TwitchApiCallOptions.query]. unfold js_object; cbn [fold_left fst snd].
  rewrite !dom_insert_L, dom_empty_L.
  apply set_eq; intros k.
  rewrite !elem_of_union, !elem_of_singleton, elem_of_empty. tauto.
Qed.

(** The request a method issues depends on its parameters only: whatever
    the client, the world and the calls issued before, the same parameters
    give the same request. *)
Theorem request_depends_on_params_only (this this' : BaseAPI.t Client)
    (r r' : Runtime World) :
  (∀ params, ∃ req,
      issued (getClips this params r).2 = issued r ++ [req] ∧
      issued (getClips this' params r').2 = issued r' ++ [req]) ∧
  (∀ params, ∃ req,
      issued (createClip this params r).2 = issued r ++ [req] ∧
      issued (createClip this' params r').2 = issued r' ++ [req]).
Proof.
  split; intros params.
  - destruct (getClips_run this params r) as (req & Hreq & ->).
    destruct (getClips_run this' params r') as (req' & Hreq' & ->).
    exists req. split; [reflexivity|]. cbn [snd issued]. congruence.
  - destruct (createClip_run this params r) as (req & Hreq & ->).
    destruct (createClip_run this' params r') as (req' & Hreq' & ->).
    exists req. split; [reflexivity|]. cbn [snd issued]. congruence.
Qed.

(** The request of [getClips] determines its parameters: two calls that
    issue the same request were given the same filter type, ids and
    pagination. *)
Theorem getClips_request_determines_params (this this' : BaseAPI.t Client)
    (params params' : HelixClipFilter.t) (r r' : Runtime World)
    (req : TwitchApiCallOptions.t) :
  issued (getClips this params r).2 = issued r ++ [req] →
  issued (getClips this' params' r').2 = issued r' ++ [req] →
  params = params'.
Proof.
  intros H1 H2.
  destruct (getClips_run this params r) as (req1 & Hreq1 & Hrun1).
  destruct (getClips_run this' params' r') as (req2 & Hreq2 & Hrun2).
  rewrite Hrun1 in H1. rewrite Hrun2 in H2. cbn [snd issued] in H1, H2.
  apply app_inv_head in H1. apply app_inv_head in H2.
  injection H1 as H1. injection H2 as H2.
  assert (Hq : TwitchApiCallOptions.query req1 = TwitchApiCallOptions.query req2)
    by congruence.
  rewrite Hreq1, Hreq2 in Hq. cbn [TwitchApiCallOptions.query] in Hq.
  apply clips_query_inj in Hq as (Ht & Hl & Ha & Hb & Hn).
  destruct params, params'; cbn in *; congruence.
Qed.

(** Two creation calls issue the same request exactly when they have the
    same channel and the same delay flag after defaulting: an omitted flag
    and the flag [false] are the same request. *)
Theorem createClip_same_request_iff (this this' : BaseAPI.t Client)
    (params params' : HelixClipCreateParams.t) (r r' : Runtime World) :
  (∃ req,
     issued (createClip this params r).2 = issued r ++ [req] ∧
     issued (createClip this' params' r').2 = issued r' ++ [req])
  ↔ HelixClipCreateParams.channelId params = HelixClipCreateParams.channelId params' ∧
    default false (HelixClipCreateParams.createAfterDelay params) =
      default false (HelixClipCreateParams.createAfterDelay params').
Proof.
  destruct (createClip_run this params r) as (req1 & Hreq1 & Hrun1).
  destruct (createClip_run this' params' r') as (req2 & Hreq2 & Hrun2).
  rewrite Hrun1, Hrun2. cbn [snd issued]. split.
  - intros (req & H1 & H2).
    apply app_inv_head in H1. apply app_inv_head in H2.
    injection H1 as H1. injection H2 as H2.
    assert (Hq : TwitchApiCallOptions.query req1 = TwitchApiCallOptions.query req2)
      by congruence.
    rewrite Hreq1, Hreq2 in Hq. cbn [TwitchApiCallOptions.query] in Hq.
    by apply create_query_inj in Hq.
  - intros [Hc Hd]. exists req1. split; [reflexivity|].
    rewrite Hreq1, Hreq2, Hc, Hd. reflexivity.
Qed.

(** [getClipsByIds] takes no pagination: for every list of ids, the empty
    one too, it issues one call, with the ids under [id] and with
    [undefined] under [after], [before] and [first]. *)
Theorem getClipsByIds_sends_no_pagination (this : BaseAPI.t Client)
    (ids : list string) (r : Runtime World) :
  ∃ req,
    issued (getClipsByIds this ids r).2 = issued r ++ [req] ∧
    TwitchApiCallOptions.query req =
      {[ "id" := JsStringArray ids; "after" := JsUndefined;
         "before" := JsUndefined; "first" := JsUndefined ]}.
Proof.
  unfold getClipsByIds.
  destruct (getClips_run this
    (HelixClipFilter.Build id_filter ids JsUndefined JsUndefined JsUndefined) r)
    as (req & -> & ->).
  eexists; split; [reflexivity|].
  cbn [TwitchApiCallOptions.query HelixClipFilter.filterType HelixClipFilter.ids
       HelixClipFilter.after HelixClipFilter.before HelixClipFilter.limit filterType_key].
  apply map_eq; intros k. unfold js_object; cbn [fold_left fst snd].
  rewrite !lookup_insert, lookup_singleton, lookup_empty.
  repeat case_decide; subst; try discriminate; reflexivity.
Qed.

End Shaping.

(** ** Paging *)

Section Paging.
Context {World ApiError HelixClipData : Type}.

#[local] Abbreviation Client := (TwitchClient.t World ApiError HelixClipData).

(** Writing a cursor over [after] changes the query at that key only. *)
Lemma clips_query_set_after (t : HelixClipFilterType) (l : list string)
    (a b n c : JsValue) :
  js_object [ (filterType_key t, JsStringArray l);
              ("after", c); ("before", b); ("first", n) ]
  = <["after" := c]>
      (js_object [ (filterType_key t, JsStringArray l);
                   ("after", a); ("before", b); ("first", n) ]).
Proof.
  destruct (filterType_key_not_pagination t) as (Ha & _ & _).
  apply map_eq; intros k. unfold js_object; cbn [fold_left fst snd].
  rewrite !lookup_insert, lookup_empty.
  repeat case_decide; subst; congruence.
Qed.

(** Paging forward.  When a listing call is fulfilled with a page, the
    same parameters with the cursor of that page as [after] issue a second
    call right after the first, and its query is the query of the first
    with the cursor of the dispatcher's answer written under [after]. *)
Theorem cursor_feeds_next_page (this : BaseAPI.t Client)
    (params : HelixClipFilter.t) (r r1 : Runtime World)
    (page : HelixPaginatedResult.t (list (HelixClip.t Client HelixClipData))) :
  getClips this params r = (Fulfilled page, r1) →
  ∃ req1 req2 result,
    issued r1 = issued r ++ [req1] ∧
    (TwitchClient.apiCall (BaseAPI._client this) ClipsListing req1 (world r)).1
      = inr result ∧
    issued (getClips this
              (HelixClipFilter.Build
                 (HelixClipFilter.filterType params) (HelixClipFilter.ids params)
                 (HelixPaginatedResult.cursor page)
                 (HelixClipFilter.before params) (HelixClipFilter.limit params))
              r1).2
      = issued r ++ [req1; req2] ∧
    TwitchApiCallOptions.query req2 =
      <["after" := HelixResponse.cursor (HelixResponse.pagination result)]>
        (TwitchApiCallOptions.query req1).
Proof.
  intros Hfirst.
  destruct (getClips_run this params r) as (req1 & Hreq1 & Hrun1).
  rewrite Hrun1 in Hfirst.
  destruct (TwitchClient.apiCall _ _ req1 _).1 as [e|result] eqn:Hcall;
    [discriminate Hfirst|].
  injection Hfirst as Hpage Hr1.
  destruct (getClips_run this
    (HelixClipFilter.Build
       (HelixClipFilter.filterType params) (HelixClipFilter.ids params)
       (HelixPaginatedResult.cursor page)
       (HelixClipFilter.before params) (HelixClipFilter.limit params)) r1)
    as (req2 & Hreq2 & Hrun2).
  exists req1, req2, result.
  split; [by rewrite <- Hr1|]. split; [exact Hcall|].
  split.
  - rewrite Hrun2. cbn [snd issued]. rewrite <- Hr1. cbn [issued].
    by rewrite <- app_assoc.
  - rewrite Hreq2, Hreq1, <- Hpage.
    cbn [TwitchApiCallOptions.query HelixPaginatedResult.cursor
         HelixClipFilter.filterType HelixClipFilter.ids HelixClipFilter.after
         HelixClipFilter.before HelixClipFilter.limit].
    apply clips_query_set_after.
Qed.

End Paging.

(** ** The further properties on the sample clients *)

(** Two clients, two worlds, one request: the parameters are the same. *)
Lemma getClips_request_determines_params_witness :
  last (issued (getClips (BaseAPI.Build Samples.answering)
                  Samples.gameFilter Samples.start).2)
    = last (issued (getClips (BaseAPI.Build Samples.failing) Samples.gameFilter
                      (BuildRuntime 7%nat [Samples.createOptions])).2) ∧
  Samples.gameFilter = Samples.gameFilter.
Proof.
  split; [reflexivity|].
  exact (getClips_request_determines_params
           (BaseAPI.Build Samples.answering) (BaseAPI.Build Samples.failing)
           Samples.gameFilter Samples.gameFilter
           Samples.start (BuildRuntime 7%nat [Samples.createOptions])
           (TwitchApiCallOptions.Build Helix "clips" "GET" None
              (js_object [ ("game_id", JsStringArray ["33214"]);
                           ("after", JsString "eyJhIjoiMTIzIn0");
                           ("before", JsString "eyJiIjoiNDU2In0");
                           ("first", JsNumber 20) ]))
           eq_refl eq_refl).
Defined.

(** An omitted delay flag and the flag [false] are one request. *)
Lemma createClip_same_request_iff_witness :
  ∃ req,
    issued (createClip (BaseAPI.Build Samples.answering)
              (HelixClipCreateParams.Build "125328655" None) Samples.start).2
      = issued Samples.start ++ [req] ∧
    issued (createClip (BaseAPI.Build Samples.failing)
              (HelixClipCreateParams.Build "125328655" (Some false))
              (BuildRuntime 7%nat [Samples.createOptions])).2
      = [Samples.createOptions] ++ [req].
Proof.
  exact (proj2 (createClip_same_request_iff
                  (BaseAPI.Build Samples.answering) (BaseAPI.Build Samples.failing)
                  (HelixClipCreateParams.Build "125328655" None)
                  (HelixClipCreateParams.Build "125328655" (Some false))
                  Samples.start (BuildRuntime 7%nat [Samples.createOptions]))
               (conj eq_refl eq_refl)).
Defined.

(** The second page on the answering sample: the cursor of the first
    answer is what the second call sends under [after]. *)
Lemma cursor_feeds_next_page_witness :
  ∃ req1 req2,
    issued (getClips (BaseAPI.Build Samples.answering)
              (HelixClipFilter.Build game_id ["33214"]
                 (JsString "eyJiIjpudWxsfQ") (JsString "eyJiIjoiNDU2In0") (JsNumber 20))
              (getClips (BaseAPI.Build Samples.answering)
                 Samples.gameFilter Samples.start).2).2
      = [req1; req2] ∧
    TwitchApiCallOptions.query req1 !! "after" = Some (JsString "eyJhIjoiMTIzIn0") ∧
    TwitchApiCallOptions.query req2 !! "after" = Some (JsString "eyJiIjpudWxsfQ").
Proof.
  destruct (cursor_feeds_next_page
              (BaseAPI.Build Samples.answering) Samples.gameFilter Samples.start
              (getClips (BaseAPI.Build Samples.answering)
                 Samples.gameFilter Samples.start).2
              (HelixPaginatedResult.Build
                 [ HelixClip.new "first clip" Samples.answering;
                   HelixClip.new "second clip" Samples.answering;
                   HelixClip.new "third clip" Samples.answering ]
                 (JsString "eyJiIjpudWxsfQ"))
              eq_refl)
    as (req1 & req2 & result & Hr1 & Hcall & Hissued & Hquery).
  exists req1, req2.
  injection Hr1 as <-. injection Hcall as <-.
  split; [exact Hissued|]. split; [reflexivity|].
  rewrite Hquery. apply lookup_insert_eq.
Defined.
